(** * TesterPy: the duck-typed assertion adapter of Pulsar's Python side

    A shallow embedding of [src/TesterPy.py]: the class [TesterPy] with its
    methods [test] and [test_value], and the two free functions
    [py_test_function] and [py_test_bool_function].

    Python code is embedded in a small state-and-exception monad [Py].  The
    state is the chronological trace of everything the module does to the
    outside: calls of the user's callable, outcomes handed to the recorder
    ([TesterBase.test_bool], [TesterBase.test_float]) and messages written
    to the debug sink ([psr.print_global_debug]). *)

From Stdlib Require Import ZArith List String Ascii Bool Lia.
From Stdlib Require Import Floats.SpecFloat.
Import ListNotations.

Local Open Scope string_scope.
Local Open Scope Z_scope.
Local Open Scope list_scope.

(** ** Exceptions *)

(** The classes of raised objects.  The first group derives from
    [Exception]; [KeyboardInterrupt], [SystemExit] and [GeneratorExit]
    derive from [BaseException] only, and so does a user class declared
    [class name(BaseException)]. *)
Inductive ExnClass : Type :=
| ZeroDivisionError
| ValueError
| TypeError
| NameError
| RuntimeError
| UserException (name : string)
| KeyboardInterrupt
| SystemExit
| GeneratorExit
| UserBaseException (name : string).

Record Exn : Type := mkExn { exn_class : ExnClass; exn_args : string }.

(** [isinstance(e, Exception)]: what the clause [except Exception as e]
    tests. *)
Definition isinstance_Exception (e : Exn) : bool :=
  match exn_class e with
  | KeyboardInterrupt | SystemExit | GeneratorExit | UserBaseException _ => false
  | _ => true
  end.

(** [str(e)] *)
Definition str (e : Exn) : string := exn_args e.

Inductive Result (A : Type) : Type :=
| Ok (a : A)
| Raise (e : Exn).
Arguments Ok {A} a.
Arguments Raise {A} e.

(** ** Values *)

(** What the [__eq__] of a user-defined object does. *)
Inductive EqMethod : Type :=
| EqIdentity              (* inherited [object.__eq__] *)
| EqAnswers (b : bool)    (* returns [b] whatever the other operand *)
| EqRaises (e : Exn).     (* raises [e] *)

(** A Python [float] is an IEEE-754 binary64, here a [spec_float] with
    precision 53 and maximal exponent 1024. *)
Inductive Value : Type :=
| VNone
| VBool (b : bool)
| VInt (z : Z)
| VFloat (f : spec_float)
| VStr (s : string)
| VFloatSub (cls : string) (f : spec_float)   (* instance of [class cls(float)] *)
| VObj (cls : string) (id : nat) (eqm : EqMethod).

Inductive PyType : Type :=
| TNoneType
| Tbool
| Tint
| Tfloat
| Tstr
| Tsubclass_of_float (cls : string)
| Tuser (cls : string).

(** [type(v)] *)
Definition type_ (v : Value) : PyType :=
  match v with
  | VNone => TNoneType
  | VBool _ => Tbool
  | VInt _ => Tint
  | VFloat _ => Tfloat
  | VStr _ => Tstr
  | VFloatSub cls _ => Tsubclass_of_float cls
  | VObj cls _ _ => Tuser cls
  end.

(** [t1 == t2] on type objects: identity of classes. *)
Definition PyType_eqb (t1 t2 : PyType) : bool :=
  match t1, t2 with
  | TNoneType, TNoneType | Tbool, Tbool | Tint, Tint
  | Tfloat, Tfloat | Tstr, Tstr => true
  | Tsubclass_of_float c1, Tsubclass_of_float c2 => String.eqb c1 c2
  | Tuser c1, Tuser c2 => String.eqb c1 c2
  | _, _ => false
  end.

(** [isinstance(v, float)] *)
Definition isinstance_float (v : Value) : bool :=
  match v with
  | VFloat _ | VFloatSub _ _ => true
  | _ => false
  end.

(** *** Equality, [a == b] *)

Inductive Num : Type :=
| NInt (z : Z)
| NFloat (f : spec_float).

(** [bool] is a subclass of [int]; a subclass of [float] inherits
    [float.__eq__]. *)
Definition as_num (v : Value) : option Num :=
  match v with
  | VBool b => Some (NInt (Z.b2z b))
  | VInt z => Some (NInt z)
  | VFloat f | VFloatSub _ f => Some (NFloat f)
  | _ => None
  end.

(** An [int] and a [float] are compared exactly: the float
    [(-1)^s * m * 2^e] against the integer. *)
Definition int_float_eqb (z : Z) (f : spec_float) : bool :=
  match f with
  | S754_zero _ => z =? 0
  | S754_finite s m e =>
      let sm := cond_Zopp s (Zpos m) in
      if 0 <=? e then z =? sm * 2 ^ e else z * 2 ^ (- e) =? sm
  | S754_infinity _ | S754_nan => false
  end.

Definition num_eqb (a b : Num) : bool :=
  match a, b with
  | NInt x, NInt y => x =? y
  | NFloat x, NFloat y => SFeqb x y
  | NInt x, NFloat f | NFloat f, NInt x => int_float_eqb x f
  end.

(** [a is b] for the values that have an identity of their own. *)
Definition is_same_object (a b : Value) : bool :=
  match a, b with
  | VObj c1 i1 _, VObj c2 i2 _ => String.eqb c1 c2 && Nat.eqb i1 i2
  | _, _ => false
  end.

(** The rich comparison [a == b]: [a.__eq__(b)] first, the reflected
    [b.__eq__(a)] when that gives [NotImplemented], identity last.  A
    user-defined [__eq__] may raise. *)
Definition py_eq (a b : Value) : Result bool :=
  match a, b with
  | VObj _ _ (EqRaises e), _ => Raise e
  | VObj _ _ (EqAnswers c), _ => Ok c
  | VObj _ _ EqIdentity, VObj _ _ (EqRaises e) =>
      if is_same_object a b then Ok true else Raise e
  | VObj _ _ EqIdentity, VObj _ _ (EqAnswers c) =>
      if is_same_object a b then Ok true else Ok c
  | VObj _ _ EqIdentity, _ => Ok (is_same_object a b)
  | _, VObj _ _ (EqRaises e) => Raise e
  | _, VObj _ _ (EqAnswers c) => Ok c
  | _, VObj _ _ EqIdentity => Ok false
  | VNone, VNone => Ok true
  | VStr s1, VStr s2 => Ok (String.eqb s1 s2)
  | _, _ =>
      match as_num a, as_num b with
      | Some x, Some y => Ok (num_eqb x y)
      | _, _ => Ok false
      end
  end.

(** ** The world outside the module *)

Inductive Event : Type :=
| EvCall (fn : string) (args : list Value)         (* [func( *args)] was entered *)
| EvTestBool (desc : string) (outcome : bool)      (* [TesterBase.test_bool] *)
| EvTestFloat (desc : string) (v1 v2 tol : Value)  (* [TesterBase.test_float] *)
| EvDebug (msg : string).                          (* [print_global_debug] *)

Definition World : Type := list Event.

(** ** The monad of Python code *)

Definition Py (A : Type) : Type := World -> Result A * World.

Definition ret {A} (a : A) : Py A := fun w => (Ok a, w).

Definition raise {A} (e : Exn) : Py A := fun w => (Raise e, w).

Definition bind {A B} (m : Py A) (k : A -> Py B) : Py B :=
  fun w =>
    match m w with
    | (Ok a, w') => k a w'
    | (Raise e, w') => (Raise e, w')
    end.

Definition lift {A} (r : Result A) : Py A := fun w => (r, w).

Notation "x <- m ;; k" := (bind m (fun x => k))
  (at level 61, m at next level, right associativity).
Notation "m ;; k" := (bind m (fun _ => k))
  (at level 61, right associativity).

(** *** [try] ... [except] *)

Record ExceptClause (A : Type) : Type := mkClause {
  clause_matches : Exn -> bool;
  clause_body : Exn -> Py A
}.
Arguments mkClause {A}.
Arguments clause_matches {A}.
Arguments clause_body {A}.

(** [except Exception as e: body e] *)
Definition except_Exception {A} (body : Exn -> Py A) : ExceptClause A :=
  mkClause isinstance_Exception body.

(** The bare [except: body] *)
Definition except_ {A} (body : Py A) : ExceptClause A :=
  mkClause (fun _ => true) (fun _ => body).

(** The first clause that matches handles the exception; what a handler
    raises is not offered to the clauses after it. *)
Fixpoint dispatch {A} (clauses : list (ExceptClause A)) (e : Exn) : Py A :=
  match clauses with
  | [] => raise e
  | c :: rest =>
      if clause_matches c e then clause_body c e else dispatch rest e
  end.

Definition try_ {A} (body : Py A) (clauses : list (ExceptClause A)) : Py A :=
  fun w =>
    match body w with
    | (Ok a, w') => (Ok a, w')
    | (Raise e, w') => dispatch clauses e w'
    end.

(** *** Statements and [return] *)

Inductive Flow : Type :=
| Next                  (* control falls through to the next statement *)
| Return (v : Value).   (* a [return v] was executed *)

Definition seq (s1 s2 : Py Flow) : Py Flow :=
  fl <- s1 ;;
  match fl with
  | Next => s2
  | Return v => ret (Return v)
  end.

Notation "s1 ;;; s2" := (seq s1 s2) (at level 62, right associativity).

(** Evaluation of an expression as a statement: its value is dropped. *)
Definition expr_stmt {A} (m : Py A) : Py Flow := m ;; ret Next.

Definition return_ (m : Py Value) : Py Flow := v <- m ;; ret (Return v).

(** A function body: falling off its end returns [None]. *)
Definition def (body : Py Flow) : Py Value :=
  fl <- body ;;
  match fl with
  | Next => ret VNone
  | Return v => ret v
  end.

(** ** Callables *)

(** The callable handed to the module, observed through what a call gives:
    a value or a raised exception. *)
Record Callable : Type := mkCallable {
  fn_name : string;
  fn_body : list Value -> Result Value
}.

(** [func( *args)] *)
Definition call (func : Callable) (args : list Value) : Py Value :=
  fun w => (fn_body func args, w ++ [EvCall (fn_name func) args]).

(** ** The external collaborators *)

(** Modelled from the spec: [TesterBase.test_bool] of the external core
    ([pulsar_core]) is not in the file; it records one boolean outcome
    under the description. *)
Definition test_bool (desc : string) (success : bool) : Py unit :=
  fun w => (Ok tt, w ++ [EvTestBool desc success]).

(** Modelled from the spec: [TesterBase.test_float] of the external core is
    not in the file; it records one comparison of two floats under a
    tolerance. *)
Definition test_float (desc : string) (v1 v2 tol : Value) : Py unit :=
  fun w => (Ok tt, w ++ [EvTestFloat desc v1 v2 tol]).

(** Modelled from the spec: [print_global_debug] of the [pulsar] package is
    not in the file; it writes the message to the process-wide debug
    sink. *)
Definition print_global_debug (msg : string) : Py unit :=
  fun w => (Ok tt, w ++ [EvDebug msg]).

(** The global names of a module. *)
Definition Namespace : Type := list string.

Definition bound (ns : Namespace) (name : string) : bool :=
  existsb (String.eqb name) ns.

(** Reading a global name: [NameError] when it is not bound. *)
Definition load_global (ns : Namespace) (name : string) : Py unit :=
  if bound ns name then ret tt
  else raise (mkExn NameError ("name '" ++ name ++ "' is not defined")%string).

(** The names the file's own top-level statements bind: the import of
    [TesterBase], the class and the two functions.  The name [psr], which
    both free functions read in their first handler, is not among them; it
    is bound only in a namespace to which the [pulsar] package has been
    added. *)
Definition file_namespace : Namespace :=
  ["TesterBase"; "TesterPy"; "py_test_function"; "py_test_bool_function"].

Definition namespace_with_psr : Namespace := "psr" :: file_namespace.

(** ["\n"] *)
Definition nl : string := String (ascii_of_nat 10) EmptyString.

(** ** class TesterPy(TesterBase) *)

(** [def test(self, desc, should_pass, expected, func, *args)] *)
Definition test (desc : string) (should_pass : bool) (expected : Value)
    (func : Callable) (args : list Value) : Py unit :=
  success <-
    try_ (r <- call func args ;;
          c <- lift (py_eq expected r) ;;
          ret (c && should_pass)%bool)
         [except_Exception (fun e => ret (negb should_pass))] ;;
  test_bool desc success.

(** The literal [0.0001], the binary64 nearest to 1/10000. *)
Definition tol_default : Value :=
  VFloat (S754_finite false 7378697629483821 (-66)).

(** [def test_value(self, desc, v1, v2, tol=0.0001)]; [None] for [tol] is
    a call that leaves the argument out. *)
Definition test_value (desc : string) (v1 v2 : Value) (tol : option Value)
    : Py unit :=
  let tol := match tol with Some t => t | None => tol_default end in
  if (PyType_eqb (type_ v1) Tfloat && PyType_eqb (type_ v2) Tfloat)%bool
  then test_float desc v1 v2 tol
  else c <- lift (py_eq v1 v2) ;; test_bool desc c.

(** ** For testing on the python side *)

(** [def py_test_function(func, *args)], in a module whose global names
    are [ns]. *)
Definition py_test_function (ns : Namespace) (func : Callable)
    (args : list Value) : Py Value :=
  def (
    try_ (expr_stmt (call func args))
      [ except_Exception (fun e =>
          load_global ns "psr" ;;
          print_global_debug (str e ++ nl)%string ;;
          ret (Return (VInt 0)));
        except_ (ret (Return (VInt 0))) ] ;;;
    ret (Return (VInt 1))).

(** [def py_test_bool_function(func, *args)] *)
Definition py_test_bool_function (ns : Namespace) (func : Callable)
    (args : list Value) : Py Value :=
  def (
    try_ (return_ (call func args))
      [ except_Exception (fun e =>
          load_global ns "psr" ;;
          print_global_debug (str e ++ nl)%string ;;
          ret (Return (VInt 0)));
        except_ (ret (Return (VInt 0))) ]).

(** ** Observations on a trace *)

(** The outcomes handed to [test_bool], oldest first. *)
Definition recorded (w : World) : list (string * bool) :=
  flat_map (fun ev => match ev with EvTestBool d b => [(d, b)] | _ => [] end) w.

(** The messages written to the debug sink, oldest first. *)
Definition sink (w : World) : list string :=
  flat_map (fun ev => match ev with EvDebug m => [m] | _ => [] end) w.

(** The comparisons handed to [test_float]. *)
Definition float_tests (w : World) : list (string * Value * Value * Value) :=
  flat_map (fun ev => match ev with
                      | EvTestFloat d a b t => [(d, a, b, t)]
                      | _ => []
                      end) w.

Definition is_call (ev : Event) : bool :=
  match ev with EvCall _ _ => true | _ => false end.

(** How many times a callable was entered. *)
Definition calls (w : World) : nat := List.length (filter is_call w).

(** How many times [test_bool] was called. *)
Definition test_bool_calls (w : World) : nat := List.length (recorded w).

(** What evaluating [expected == func( *args)] gives: the callable runs
    first, the comparison second. *)
Definition compared (expected : Value) (func : Callable) (args : list Value)
    : Result bool :=
  match fn_body func args with
  | Ok v => py_eq expected v
  | Raise e => Raise e
  end.

(** ** Sample inputs *)

(** [lambda: 42] *)
Definition lambda_42 : Callable :=
  mkCallable "<lambda>" (fun _ => Ok (VInt 42)).

(** [lambda: True] *)
Definition lambda_True : Callable :=
  mkCallable "<lambda>" (fun _ => Ok (VBool true)).

(** [lambda: 1/0] *)
Definition lambda_div0 : Callable :=
  mkCallable "<lambda>"
    (fun _ => Raise (mkExn ZeroDivisionError "division by zero")).

(** A callable interrupted from the keyboard while it runs. *)
Definition interrupted : Callable :=
  mkCallable "interrupted" (fun _ => Raise (mkExn KeyboardInterrupt "")).

(** An object whose [__eq__] raises [ValueError], and a callable that
    returns it. *)
Definition ambiguous : Value :=
  VObj "Ambiguous" 0
    (EqRaises (mkExn ValueError "The truth value is ambiguous")).

Definition returns_ambiguous : Callable :=
  mkCallable "returns_ambiguous" (fun _ => Ok ambiguous).

(** The floats [1.0] and [1.00005]. *)
Definition float_1_0 : spec_float := S754_finite false 4503599627370496 (-52).
Definition float_1_00005 : spec_float :=
  S754_finite false 4503824807351865 (-52).

(** ** The sentences of the description that the code does not bear out,
       as they are written *)

(** [test] records [True] exactly when the callable returns a value equal
    to [expected] and [should_pass] holds, or the callable raises and
    [should_pass] does not hold; otherwise it records [False]. *)
Definition test_outcome_as_described : Prop :=
  forall desc should_pass expected func args w,
  exists b,
    recorded (snd (test desc should_pass expected func args w))
      = recorded w ++ [(desc, b)]
    /\ (b = true <->
        (exists v, fn_body func args = Ok v /\ py_eq expected v = Ok true
                   /\ should_pass = true)
        \/ (exists e, fn_body func args = Raise e /\ should_pass = false)).

(** [test] never propagates what the callable raises and calls [test_bool]
    exactly once. *)
Definition test_never_propagates_as_described : Prop :=
  forall desc should_pass expected func args w,
    (forall e, fn_body func args = Raise e ->
               fst (test desc should_pass expected func args w) <> Raise e)
    /\ test_bool_calls (snd (test desc should_pass expected func args w))
       = S (test_bool_calls w).

(** When the callable raises, [py_test_function] writes a non-empty message
    to the sink and returns 0. *)
Definition py_test_function_raising_as_described : Prop :=
  forall func args e w,
    fn_body func args = Raise e ->
    exists msg,
      msg <> ""%string
      /\ sink (snd (py_test_function namespace_with_psr func args w))
         = sink w ++ [msg]
      /\ fst (py_test_function namespace_with_psr func args w) = Ok (VInt 0).

(** When the callable raises, [py_test_bool_function] writes to the sink
    and returns 0. *)
Definition py_test_bool_function_raising_as_described : Prop :=
  forall func args e w,
    fn_body func args = Raise e ->
    exists msg,
      sink (snd (py_test_bool_function namespace_with_psr func args w))
        = sink w ++ [msg]
      /\ fst (py_test_bool_function namespace_with_psr func args w)
         = Ok (VInt 0).

(** Whenever both values are floating-point numbers, [test_value] hands
    them to [test_float]. *)
Definition test_value_floats_as_described : Prop :=
  forall desc v1 v2 tol w,
    isinstance_float v1 = true -> isinstance_float v2 = true ->
    exists t,
      test_value desc v1 v2 tol w = (Ok tt, w ++ [EvTestFloat desc v1 v2 t]).

(** ** Further vocabulary *)

(** The values of the built-in types: everything but an instance of a user
    class with an [__eq__] of its own. *)
Definition is_builtin (v : Value) : bool :=
  match v with
  | VObj _ _ _ => false
  | _ => true
  end.

(** [lambda: 0] *)
Definition lambda_0 : Callable :=
  mkCallable "<lambda>" (fun _ => Ok (VInt 0)).

(** The error that reading the unbound name [psr] raises. *)
Definition psr_NameError : Exn := mkExn NameError "name 'psr' is not defined".

(** * Properties *)

(** ** Traces *)

Lemma recorded_app (w1 w2 : World) :
  recorded (w1 ++ w2) = recorded w1 ++ recorded w2.
Proof. apply flat_map_app. Qed.

Lemma sink_app (w1 w2 : World) : sink (w1 ++ w2) = sink w1 ++ sink w2.
Proof. apply flat_map_app. Qed.

Lemma float_tests_app (w1 w2 : World) :
  float_tests (w1 ++ w2) = float_tests w1 ++ float_tests w2.
Proof. apply flat_map_app. Qed.

Lemma calls_app (w1 w2 : World) : calls (w1 ++ w2) = (calls w1 + calls w2)%nat.
Proof. unfold calls. now rewrite filter_app, length_app. Qed.

Lemma test_bool_calls_app (w1 w2 : World) :
  test_bool_calls (w1 ++ w2) = (test_bool_calls w1 + test_bool_calls w2)%nat.
Proof. unfold test_bool_calls. now rewrite recorded_app, length_app. Qed.

Lemma snoc2 {A} (l : list A) (a b : A) : (l ++ [a]) ++ [b] = l ++ [a; b].
Proof. now rewrite <- app_assoc. Qed.

(** A message that ends in a newline is not empty. *)
Lemma append_nl_nonempty (s : string) : (s ++ nl)%string <> ""%string.
Proof. destruct s; discriminate. Qed.

(** The default tolerance is the correctly rounded quotient of 1 by
    10000 in binary64, that is the literal [0.0001]. *)
Lemma tol_default_is_1e_4 :
  tol_default
  = VFloat (SFdiv 53 1024 float_1_0 (binary_normalize 53 1024 10000 0 false)).
Proof. reflexivity. Qed.

(** ** [test] *)

(** The three ways a call of [test] can go. *)
Lemma test_run desc should_pass expected func args w :
  test desc should_pass expected func args w =
  match compared expected func args with
  | Ok c =>
      (Ok tt, w ++ [EvCall (fn_name func) args;
                    EvTestBool desc (c && should_pass)])
  | Raise e =>
      if isinstance_Exception e
      then (Ok tt, w ++ [EvCall (fn_name func) args;
                         EvTestBool desc (negb should_pass)])
      else (Raise e, w ++ [EvCall (fn_name func) args])
  end.
Proof.
  unfold test, compared, try_, bind, call, lift, ret, test_bool.
  destruct (fn_body func args) as [v | e]; simpl.
  - destruct (py_eq expected v) as [c | e]; simpl.
    + now rewrite snoc2.
    + destruct (isinstance_Exception e); simpl; [now rewrite snoc2 | reflexivity].
  - destruct (isinstance_Exception e); simpl; [now rewrite snoc2 | reflexivity].
Qed.

(** C1, as amended.  When neither the callable nor the comparison raises an
    error outside [Exception], [test] hands exactly one outcome to
    [test_bool], and that outcome is [True] exactly when the callable
    returns a value that compares equal to [expected] and [should_pass]
    holds, or the callable or the comparison raises and [should_pass] does
    not hold; it is [False] in every other such case. *)
Theorem test_records_true_iff desc should_pass expected func args w :
  (forall e, compared expected func args = Raise e ->
             isinstance_Exception e = true) ->
  exists b,
    test desc should_pass expected func args w
      = (Ok tt, w ++ [EvCall (fn_name func) args; EvTestBool desc b])
    /\ (b = true <->
        (exists v, fn_body func args = Ok v /\ py_eq expected v = Ok true
                   /\ should_pass = true)
        \/ (exists e, compared expected func args = Raise e
                      /\ should_pass = false)).
Proof.
  intros Hexc. rewrite test_run. unfold compared in *.
  destruct (fn_body func args) as [v | e] eqn:Hf.
  - destruct (py_eq expected v) as [c | e] eqn:Hc.
    + exists (c && should_pass)%bool. split; [reflexivity |]. split.
      * intros H. apply andb_prop in H as [-> ->]. left. now exists v.
      * intros [(v' & Hv & Hc' & ->) | (e & He & _)]; [| discriminate].
        injection Hv as <-. rewrite Hc in Hc'. now injection Hc' as ->.
    + rewrite (Hexc e eq_refl). exists (negb should_pass).
      split; [reflexivity |]. split.
      * intros H. right. exists e. split; [reflexivity |].
        now destruct should_pass.
      * intros [(v' & Hv & Hc' & _) | (e' & _ & ->)]; [| reflexivity].
        injection Hv as <-. rewrite Hc in Hc'. discriminate.
  - rewrite (Hexc e eq_refl). exists (negb should_pass).
    split; [reflexivity |]. split.
    + intros H. right. exists e. split; [reflexivity |].
      now destruct should_pass.
    + intros [(v' & Hv & _) | (e' & _ & ->)]; [discriminate | reflexivity].
Qed.

Lemma test_records_true_iff_witness :
  exists b,
    test "answer" true (VInt 42) lambda_42 [] []
      = (Ok tt, [] ++ [EvCall (fn_name lambda_42) []; EvTestBool "answer" b])
    /\ (b = true <->
        (exists v, fn_body lambda_42 [] = Ok v /\ py_eq (VInt 42) v = Ok true
                   /\ true = true)
        \/ (exists e, compared (VInt 42) lambda_42 [] = Raise e
                      /\ true = false)).
Proof.
  apply (test_records_true_iff "answer" true (VInt 42) lambda_42 [] []).
  intros e H. vm_compute in H. discriminate H.
Defined.

(** C1, as written, fails: a callable that raises [KeyboardInterrupt] under
    [should_pass = False] leaves nothing recorded. *)
Lemma test_outcome_as_described_fails : ~ test_outcome_as_described.
Proof.
  intros H.
  destruct (H "d" false VNone interrupted [] []) as (b & Hrec & _).
  vm_compute in Hrec. discriminate Hrec.
Qed.

(** C2, as amended.  [test] never propagates an error derived from
    [Exception]: when neither the callable nor the comparison raises an
    error outside [Exception] it returns normally after exactly one call
    of [test_bool]; what it propagates is an error outside [Exception]
    that the callable or the comparison raised, and then [test_bool] is not
    called.  Conversely every error outside [Exception], raised by the
    callable or by the comparison, does propagate to the caller of [test],
    without a call of [test_bool]. *)
Theorem test_propagates_only_outside_Exception
    desc should_pass expected func args w :
  ((forall e, compared expected func args = Raise e ->
              isinstance_Exception e = true) ->
   fst (test desc should_pass expected func args w) = Ok tt
   /\ test_bool_calls (snd (test desc should_pass expected func args w))
      = S (test_bool_calls w))
  /\ (forall e,
        fst (test desc should_pass expected func args w) = Raise e ->
        isinstance_Exception e = false
        /\ compared expected func args = Raise e
        /\ test_bool_calls (snd (test desc should_pass expected func args w))
           = test_bool_calls w)
  /\ (forall e,
        compared expected func args = Raise e ->
        isinstance_Exception e = false ->
        fst (test desc should_pass expected func args w) = Raise e
        /\ test_bool_calls (snd (test desc should_pass expected func args w))
           = test_bool_calls w).
Proof.
  rewrite test_run. split; [| split].
  - intros Hexc. destruct (compared expected func args) as [c | e].
    + simpl. rewrite test_bool_calls_app. cbn. split; [reflexivity | lia].
    + rewrite (Hexc e eq_refl). simpl. rewrite test_bool_calls_app. cbn.
      split; [reflexivity | lia].
  - intros e He. destruct (compared expected func args) as [c | e'].
    + discriminate He.
    + destruct (isinstance_Exception e') eqn:Hi; simpl in *; [discriminate |].
      injection He as ->. rewrite test_bool_calls_app. cbn.
      repeat split; [assumption | lia].
  - intros e He Hi. rewrite He, Hi. simpl. rewrite test_bool_calls_app. cbn.
    split; [reflexivity | lia].
Qed.

Lemma test_propagates_only_outside_Exception_witness :
  (fst (test "fails" false VNone lambda_div0 [] []) = Ok tt
   /\ test_bool_calls (snd (test "fails" false VNone lambda_div0 [] []))
      = S (test_bool_calls []))
  /\ (fst (test "interrupt" true VNone interrupted [] [])
        = Raise (mkExn KeyboardInterrupt "")
      /\ test_bool_calls (snd (test "interrupt" true VNone interrupted [] []))
         = test_bool_calls []).
Proof.
  split.
  - apply (proj1 (test_propagates_only_outside_Exception
                    "fails" false VNone lambda_div0 [] [])).
    intros e H. vm_compute in H. injection H as <-. reflexivity.
  - apply (proj2 (proj2 (test_propagates_only_outside_Exception
                           "interrupt" true VNone interrupted [] [])));
      reflexivity.
Defined.

(** C2, as written, fails: [KeyboardInterrupt] raised by the callable
    reaches the caller of [test]. *)
Lemma test_never_propagates_as_described_fails :
  ~ test_never_propagates_as_described.
Proof.
  intros H.
  destruct (H "d" true VNone interrupted [] []) as [Hprop _].
  apply (Hprop (mkExn KeyboardInterrupt "")); reflexivity.
Qed.

(** C8.  Each call of [test] enters the callable exactly once, whatever the
    callable does and whatever [should_pass] is: never twice. *)
Theorem test_calls_func_once desc should_pass expected func args w :
  calls (snd (test desc should_pass expected func args w)) = S (calls w)
  /\ exists rest,
       snd (test desc should_pass expected func args w)
         = w ++ EvCall (fn_name func) args :: rest
       /\ calls rest = 0%nat.
Proof.
  rewrite test_run.
  destruct (compared expected func args) as [c | e];
    [| destruct (isinstance_Exception e)]; simpl;
    rewrite calls_app; cbn; (split; [lia |]);
    eexists; (split; [reflexivity | reflexivity]).
Qed.

(** C9.  An error raised by the comparison of [expected] with the returned
    value is handled as one raised by the callable: if it derives from
    [Exception] the recorded outcome is [not should_pass]; an error that
    does not derive from [Exception], from either place, leaves [test]
    with nothing recorded. *)
Theorem test_comparison_error desc should_pass expected func args w :
  (forall v e,
     fn_body func args = Ok v -> py_eq expected v = Raise e ->
     isinstance_Exception e = true ->
     test desc should_pass expected func args w
       = (Ok tt, w ++ [EvCall (fn_name func) args;
                       EvTestBool desc (negb should_pass)]))
  /\ (forall e,
        fn_body func args = Raise e -> isinstance_Exception e = true ->
        test desc should_pass expected func args w
          = (Ok tt, w ++ [EvCall (fn_name func) args;
                          EvTestBool desc (negb should_pass)]))
  /\ (forall e,
        compared expected func args = Raise e ->
        isinstance_Exception e = false ->
        test desc should_pass expected func args w
          = (Raise e, w ++ [EvCall (fn_name func) args])
        /\ recorded (snd (test desc should_pass expected func args w))
           = recorded w).
Proof.
  rewrite test_run. unfold compared. repeat split.
  - intros v e -> -> ->. reflexivity.
  - intros e -> ->. reflexivity.
  - destruct (fn_body func args) as [v | e'];
      [destruct (py_eq expected v) as [c | e'] |];
      try discriminate; injection H as ->; now rewrite H0.
  - destruct (fn_body func args) as [v | e'];
      [destruct (py_eq expected v) as [c | e'] |];
      try discriminate; injection H as ->; rewrite H0; simpl;
      rewrite recorded_app; cbn; apply app_nil_r.
Qed.

Lemma test_comparison_error_witness :
  test "eq raises" false (VInt 1) returns_ambiguous [] []
    = (Ok tt, [] ++ [EvCall (fn_name returns_ambiguous) [];
                     EvTestBool "eq raises" (negb false)])
  /\ (test "interrupt" false VNone interrupted [] []
        = (Raise (mkExn KeyboardInterrupt ""),
           [] ++ [EvCall (fn_name interrupted) []])
      /\ recorded (snd (test "interrupt" false VNone interrupted [] []))
         = recorded []).
Proof.
  split.
  - exact (proj1 (test_comparison_error
                    "eq raises" false (VInt 1) returns_ambiguous [] [])
                 ambiguous _ eq_refl eq_refl eq_refl).
  - exact (proj2 (proj2 (test_comparison_error
                           "interrupt" false VNone interrupted [] []))
                 _ eq_refl eq_refl).
Defined.

(** ** [test_value] *)

(** The strict-equality path: the comparison is evaluated and its result
    handed to [test_bool]. *)
Lemma strict_path_run desc v1 v2 w :
  (c <- lift (py_eq v1 v2) ;; test_bool desc c) w =
  match py_eq v1 v2 with
  | Ok b => (Ok tt, w ++ [EvTestBool desc b])
  | Raise e => (Raise e, w)
  end.
Proof. unfold bind, lift, test_bool. now destruct (py_eq v1 v2). Qed.

(** The test of the two types holds for two [float] objects only. *)
Lemma both_float_iff v1 v2 :
  (PyType_eqb (type_ v1) Tfloat && PyType_eqb (type_ v2) Tfloat)%bool = true
  <-> exists f1 f2, v1 = VFloat f1 /\ v2 = VFloat f2.
Proof.
  split.
  - intros H. apply andb_prop in H as [H1 H2].
    destruct v1; try discriminate H1. destruct v2; try discriminate H2.
    eauto.
  - intros (f1 & f2 & -> & ->). reflexivity.
Qed.

(** Whenever the two values are not both [float] objects, [test_value]
    is the strict-equality path. *)
Lemma test_value_strict_run desc v1 v2 tol w :
  ~ (exists f1 f2, v1 = VFloat f1 /\ v2 = VFloat f2) ->
  test_value desc v1 v2 tol w =
  match py_eq v1 v2 with
  | Ok b => (Ok tt, w ++ [EvTestBool desc b])
  | Raise e => (Raise e, w)
  end.
Proof.
  intros Hnf. unfold test_value.
  destruct (PyType_eqb (type_ v1) Tfloat && PyType_eqb (type_ v2) Tfloat)%bool
    eqn:Hb.
  - apply both_float_iff in Hb. contradiction.
  - apply strict_path_run.
Qed.

(** C3, as amended.  [test_value] hands the two values and the tolerance
    to [test_float] exactly when the type of both is [float] itself;
    otherwise, also for floating-point numbers of a subclass of [float], it
    evaluates [v1 == v2] and hands the result to [test_bool]; a call that
    leaves the tolerance out is a call with [0.0001]. *)
Theorem test_value_dispatch desc v1 v2 tol w :
  ((exists f1 f2, v1 = VFloat f1 /\ v2 = VFloat f2) ->
   forall t, tol = Some t ->
     test_value desc v1 v2 tol w = (Ok tt, w ++ [EvTestFloat desc v1 v2 t]))
  /\ (~ (exists f1 f2, v1 = VFloat f1 /\ v2 = VFloat f2) ->
      test_value desc v1 v2 tol w =
      match py_eq v1 v2 with
      | Ok b => (Ok tt, w ++ [EvTestBool desc b])
      | Raise e => (Raise e, w)
      end)
  /\ test_value desc v1 v2 None w = test_value desc v1 v2 (Some tol_default) w
  /\ tol_default
     = VFloat (SFdiv 53 1024 float_1_0
                 (binary_normalize 53 1024 10000 0 false)).
Proof.
  split; [| split; [| split]].
  - intros Hf t ->. apply both_float_iff in Hf.
    unfold test_value. now rewrite Hf.
  - apply test_value_strict_run.
  - reflexivity.
  - apply tol_default_is_1e_4.
Qed.

Lemma test_value_dispatch_witness :
  test_value "close" (VFloat float_1_0) (VFloat float_1_00005) None []
    = (Ok tt, [] ++ [EvTestFloat "close" (VFloat float_1_0)
                       (VFloat float_1_00005) tol_default])
  /\ test_value "letters" (VStr "a") (VStr "b") None []
     = match py_eq (VStr "a") (VStr "b") with
       | Ok b => (Ok tt, [] ++ [EvTestBool "letters" b])
       | Raise e => (Raise e, [])
       end.
Proof.
  split.
  - destruct (test_value_dispatch "close" (VFloat float_1_0)
                (VFloat float_1_00005) None [])
      as (Hfloat & _ & Hdefault & _).
    rewrite Hdefault.
    destruct (test_value_dispatch "close" (VFloat float_1_0)
                (VFloat float_1_00005) (Some tol_default) [])
      as (Hfloat' & _).
    apply Hfloat'; [now exists float_1_0, float_1_00005 | reflexivity].
  - apply (proj1 (proj2 (test_value_dispatch
                           "letters" (VStr "a") (VStr "b") None []))).
    intros (f1 & f2 & H & _). discriminate H.
Defined.

(** C3, as written, fails: two floating-point numbers of a subclass of
    [float] are not handed to [test_float]; they are compared with [==]
    and the tolerance plays no part. *)
Lemma test_value_floats_as_described_fails : ~ test_value_floats_as_described.
Proof.
  intros H.
  destruct (H "wrapped" (VFloatSub "float64" float_1_0)
              (VFloatSub "float64" float_1_00005) None [] eq_refl eq_refl)
    as [t Ht].
  vm_compute in Ht. discriminate Ht.
Qed.

(** C10.  The test is on the exact type: for a [float] with an [int], and
    for any pair with an instance of a strict subclass of [float],
    [test_value] takes the strict-equality path, and what it does is the
    same for every tolerance. *)
Theorem test_value_exact_type desc v1 v2 w :
  (exists f z, (v1 = VFloat f /\ v2 = VInt z) \/ (v1 = VInt z /\ v2 = VFloat f))
  \/ (exists cls f, v1 = VFloatSub cls f \/ v2 = VFloatSub cls f) ->
  forall tol,
    test_value desc v1 v2 tol w =
    match py_eq v1 v2 with
    | Ok b => (Ok tt, w ++ [EvTestBool desc b])
    | Raise e => (Raise e, w)
    end
    /\ float_tests (snd (test_value desc v1 v2 tol w)) = float_tests w.
Proof.
  intros H tol.
  assert (Hstrict : test_value desc v1 v2 tol w =
                    match py_eq v1 v2 with
                    | Ok b => (Ok tt, w ++ [EvTestBool desc b])
                    | Raise e => (Raise e, w)
                    end).
  { apply test_value_strict_run.
    intros (f1 & f2 & -> & ->).
    destruct H as [(f & z & [[_ H] | [H _]]) | (cls & f & [H | H])];
      discriminate H. }
  split; [exact Hstrict |]. rewrite Hstrict.
  destruct (py_eq v1 v2); simpl; [| reflexivity].
  rewrite float_tests_app. cbn. apply app_nil_r.
Qed.

Lemma test_value_exact_type_witness :
  test_value "mixed" (VFloat float_1_00005) (VInt 1) (Some tol_default) []
    = match py_eq (VFloat float_1_00005) (VInt 1) with
      | Ok b => (Ok tt, [] ++ [EvTestBool "mixed" b])
      | Raise e => (Raise e, [])
      end
  /\ float_tests (snd (test_value "mixed" (VFloat float_1_00005) (VInt 1)
                         (Some tol_default) []))
     = float_tests [].
Proof.
  apply (test_value_exact_type "mixed" (VFloat float_1_00005) (VInt 1) []).
  left. exists float_1_00005, 1. left. split; reflexivity.
Defined.

(** [1.00005] and the integer [1] are within the default tolerance of each
    other, and the recorded outcome is a failure all the same; [1.0] and
    [1] record a pass. *)
Example test_value_float_int :
  test_value "mixed" (VFloat float_1_00005) (VInt 1) None []
    = (Ok tt, [EvTestBool "mixed" false])
  /\ test_value "mixed" (VFloat float_1_0) (VInt 1) None []
     = (Ok tt, [EvTestBool "mixed" true]).
Proof. split; reflexivity. Qed.

(** An instance of a subclass of [float] is a float for [isinstance], not
    for the test of [test_value]: two of them, equal and well within any
    tolerance, are compared by [==]. *)
Example test_value_float_subclass :
  isinstance_float (VFloatSub "float64" float_1_0) = true
  /\ test_value "wrapped" (VFloatSub "float64" float_1_0)
       (VFloatSub "float64" float_1_00005) None []
     = (Ok tt, [EvTestBool "wrapped" false]).
Proof. split; reflexivity. Qed.

Example test_value_strings :
  test_value "same" (VStr "a") (VStr "a") None []
    = (Ok tt, [EvTestBool "same" true])
  /\ test_value "other" (VStr "a") (VStr "b") None []
     = (Ok tt, [EvTestBool "other" false]).
Proof. split; reflexivity. Qed.

(** ** [py_test_function] and [py_test_bool_function] *)

(** C4.  When the callable returns, [py_test_function] returns 1, whatever
    the returned value and whatever the module's namespace; nothing is
    written to the sink. *)
Theorem py_test_function_returns_1 ns func args v w :
  fn_body func args = Ok v ->
  py_test_function ns func args w
    = (Ok (VInt 1), w ++ [EvCall (fn_name func) args]).
Proof.
  intros Hf.
  unfold py_test_function, def, seq, try_, expr_stmt, bind, call, ret.
  now rewrite Hf.
Qed.

Lemma py_test_function_returns_1_witness :
  py_test_function file_namespace lambda_42 [] []
    = (Ok (VInt 1), [] ++ [EvCall (fn_name lambda_42) []]).
Proof.
  apply (py_test_function_returns_1 file_namespace lambda_42 [] (VInt 42) []).
  reflexivity.
Defined.

(** The first handler of both functions. *)
Lemma handler_run ns e w :
  (load_global ns "psr" ;;
   print_global_debug (str e ++ nl)%string ;;
   ret (Return (VInt 0))) w =
  if bound ns "psr"
  then (Ok (Return (VInt 0)), w ++ [EvDebug (str e ++ nl)%string])
  else (Raise (mkExn NameError "name 'psr' is not defined"), w).
Proof.
  unfold bind, load_global, print_global_debug, ret, raise.
  now destruct (bound ns "psr").
Qed.

(** What [py_test_function] does when the callable raises. *)
Lemma py_test_function_raise_run ns func args e w :
  fn_body func args = Raise e ->
  py_test_function ns func args w =
  if isinstance_Exception e
  then if bound ns "psr"
       then (Ok (VInt 0),
             w ++ [EvCall (fn_name func) args; EvDebug (str e ++ nl)%string])
       else (Raise (mkExn NameError "name 'psr' is not defined"),
             w ++ [EvCall (fn_name func) args])
  else (Ok (VInt 0), w ++ [EvCall (fn_name func) args]).
Proof.
  intros Hf.
  unfold py_test_function, def, seq, try_, expr_stmt.
  unfold bind at 1 2 3. unfold call at 1. rewrite Hf. simpl.
  unfold except_Exception, except_. simpl.
  destruct (isinstance_Exception e); [| reflexivity].
  rewrite handler_run. destruct (bound ns "psr"); simpl;
    [now rewrite snoc2 | reflexivity].
Qed.

(** What [py_test_bool_function] does when the callable raises. *)
Lemma py_test_bool_function_raise_run ns func args e w :
  fn_body func args = Raise e ->
  py_test_bool_function ns func args w =
  if isinstance_Exception e
  then if bound ns "psr"
       then (Ok (VInt 0),
             w ++ [EvCall (fn_name func) args; EvDebug (str e ++ nl)%string])
       else (Raise (mkExn NameError "name 'psr' is not defined"),
             w ++ [EvCall (fn_name func) args])
  else (Ok (VInt 0), w ++ [EvCall (fn_name func) args]).
Proof.
  intros Hf.
  unfold py_test_bool_function, def, try_, return_.
  unfold bind at 1 2. unfold call at 1. rewrite Hf. simpl.
  unfold except_Exception, except_. simpl.
  destruct (isinstance_Exception e); [| reflexivity].
  rewrite handler_run. destruct (bound ns "psr"); simpl;
    [now rewrite snoc2 | reflexivity].
Qed.

(** C5, as amended.  When the callable raises an error derived from
    [Exception] and the name [psr] is bound, [py_test_function] writes
    [str(e)] followed by a newline, a non-empty message, to the sink and
    returns 0; when the error is not derived from [Exception] it returns 0
    and writes nothing; in both cases the error does not reach the
    caller. *)
Theorem py_test_function_raising ns func args e w :
  fn_body func args = Raise e ->
  (isinstance_Exception e = true -> bound ns "psr" = true ->
   py_test_function ns func args w
     = (Ok (VInt 0),
        w ++ [EvCall (fn_name func) args; EvDebug (str e ++ nl)%string])
   /\ sink (snd (py_test_function ns func args w))
      = sink w ++ [(str e ++ nl)%string]
   /\ (str e ++ nl)%string <> ""%string)
  /\ (isinstance_Exception e = false ->
      py_test_function ns func args w
        = (Ok (VInt 0), w ++ [EvCall (fn_name func) args])
      /\ sink (snd (py_test_function ns func args w)) = sink w).
Proof.
  intros Hf. rewrite (py_test_function_raise_run ns func args e w Hf). split.
  - intros -> ->. simpl. rewrite sink_app. cbn.
    repeat split. apply append_nl_nonempty.
  - intros ->. simpl. rewrite sink_app. cbn. split; [reflexivity |].
    apply app_nil_r.
Qed.

Lemma py_test_function_raising_witness :
  py_test_function namespace_with_psr lambda_div0 [] []
    = (Ok (VInt 0),
       [] ++ [EvCall (fn_name lambda_div0) [];
              EvDebug (str (mkExn ZeroDivisionError "division by zero")
                       ++ nl)%string])
  /\ sink (snd (py_test_function namespace_with_psr lambda_div0 [] []))
     = sink [] ++ [(str (mkExn ZeroDivisionError "division by zero")
                    ++ nl)%string]
  /\ (str (mkExn ZeroDivisionError "division by zero") ++ nl)%string
     <> ""%string.
Proof.
  exact (proj1 (py_test_function_raising namespace_with_psr lambda_div0 []
                  (mkExn ZeroDivisionError "division by zero") [] eq_refl)
               eq_refl eq_refl).
Defined.

(** C5, as written, fails: after [KeyboardInterrupt] the bare [except]
    returns 0 and the sink is left as it was. *)
Lemma py_test_function_raising_as_described_fails :
  ~ py_test_function_raising_as_described.
Proof.
  intros H.
  destruct (H interrupted [] (mkExn KeyboardInterrupt "") [] eq_refl)
    as (msg & _ & Hsink & _).
  vm_compute in Hsink. discriminate Hsink.
Qed.

(** C6.  When the callable returns, [py_test_bool_function] returns the
    very value the callable returned, of whatever type. *)
Theorem py_test_bool_function_returns_value ns func args v w :
  fn_body func args = Ok v ->
  py_test_bool_function ns func args w
    = (Ok v, w ++ [EvCall (fn_name func) args]).
Proof.
  intros Hf.
  unfold py_test_bool_function, def, try_, return_, bind, call, ret.
  now rewrite Hf.
Qed.

Lemma py_test_bool_function_returns_value_witness :
  py_test_bool_function file_namespace lambda_42 [] []
    = (Ok (VInt 42), [] ++ [EvCall (fn_name lambda_42) []]).
Proof.
  apply (py_test_bool_function_returns_value
           file_namespace lambda_42 [] (VInt 42) []).
  reflexivity.
Defined.

Example py_test_bool_function_True :
  fst (py_test_bool_function file_namespace lambda_True [] [])
    = Ok (VBool true).
Proof. reflexivity. Qed.

(** C7, as amended.  When the callable raises an error derived from
    [Exception] and the name [psr] is bound, [py_test_bool_function]
    writes one message to the sink and returns 0; when the error is not
    derived from [Exception] it returns 0 and writes nothing; in both cases
    the error does not reach the caller. *)
Theorem py_test_bool_function_raising ns func args e w :
  fn_body func args = Raise e ->
  (isinstance_Exception e = true -> bound ns "psr" = true ->
   fst (py_test_bool_function ns func args w) = Ok (VInt 0)
   /\ sink (snd (py_test_bool_function ns func args w))
      = sink w ++ [(str e ++ nl)%string])
  /\ (isinstance_Exception e = false ->
      fst (py_test_bool_function ns func args w) = Ok (VInt 0)
      /\ sink (snd (py_test_bool_function ns func args w)) = sink w).
Proof.
  intros Hf. rewrite (py_test_bool_function_raise_run ns func args e w Hf).
  split.
  - intros -> ->. simpl. rewrite sink_app. cbn. split; reflexivity.
  - intros ->. simpl. rewrite sink_app. cbn. split; [reflexivity |].
    apply app_nil_r.
Qed.

Lemma py_test_bool_function_raising_witness :
  fst (py_test_bool_function namespace_with_psr lambda_div0 [] [])
    = Ok (VInt 0)
  /\ sink (snd (py_test_bool_function namespace_with_psr lambda_div0 [] []))
     = sink [] ++ [(str (mkExn ZeroDivisionError "division by zero")
                    ++ nl)%string].
Proof.
  exact (proj1 (py_test_bool_function_raising namespace_with_psr lambda_div0
                  [] (mkExn ZeroDivisionError "division by zero") [] eq_refl)
               eq_refl eq_refl).
Defined.

(** C7, as written, fails in the same way as C5. *)
Lemma py_test_bool_function_raising_as_described_fails :
  ~ py_test_bool_function_raising_as_described.
Proof.
  intros H.
  destruct (H interrupted [] (mkExn KeyboardInterrupt "") [] eq_refl)
    as (msg & Hsink & _).
  vm_compute in Hsink. discriminate Hsink.
Qed.

(** ** The name [psr] *)

(** In the namespace that the file's own statements build, the first
    handler of either function fails on its first name: the [NameError] is
    raised inside the handler, so it is not offered to the bare [except]
    and leaves the function. *)
Lemma py_test_function_psr_unbound func args e w :
  fn_body func args = Raise e -> isinstance_Exception e = true ->
  py_test_function file_namespace func args w
    = (Raise (mkExn NameError "name 'psr' is not defined"),
       w ++ [EvCall (fn_name func) args]).
Proof.
  intros Hf He.
  now rewrite (py_test_function_raise_run _ _ _ _ _ Hf), He.
Qed.

Lemma py_test_bool_function_psr_unbound func args e w :
  fn_body func args = Raise e -> isinstance_Exception e = true ->
  py_test_bool_function file_namespace func args w
    = (Raise (mkExn NameError "name 'psr' is not defined"),
       w ++ [EvCall (fn_name func) args]).
Proof.
  intros Hf He.
  now rewrite (py_test_bool_function_raise_run _ _ _ _ _ Hf), He.
Qed.

(** * Further properties of the four functions *)

(** ** What every call of the free functions does *)

Lemma py_test_function_run ns func args w :
  py_test_function ns func args w =
  match fn_body func args with
  | Ok _ => (Ok (VInt 1), w ++ [EvCall (fn_name func) args])
  | Raise e =>
      if isinstance_Exception e
      then if bound ns "psr"
           then (Ok (VInt 0),
                 w ++ [EvCall (fn_name func) args;
                       EvDebug (str e ++ nl)%string])
           else (Raise psr_NameError, w ++ [EvCall (fn_name func) args])
      else (Ok (VInt 0), w ++ [EvCall (fn_name func) args])
  end.
Proof.
  destruct (fn_body func args) as [v | e] eqn:Hf.
  - unfold py_test_function, def, seq, try_, expr_stmt, bind, call, ret.
    now rewrite Hf.
  - apply py_test_function_raise_run, Hf.
Qed.

Lemma py_test_bool_function_run ns func args w :
  py_test_bool_function ns func args w =
  match fn_body func args with
  | Ok v => (Ok v, w ++ [EvCall (fn_name func) args])
  | Raise e =>
      if isinstance_Exception e
      then if bound ns "psr"
           then (Ok (VInt 0),
                 w ++ [EvCall (fn_name func) args;
                       EvDebug (str e ++ nl)%string])
           else (Raise psr_NameError, w ++ [EvCall (fn_name func) args])
      else (Ok (VInt 0), w ++ [EvCall (fn_name func) args])
  end.
Proof.
  destruct (fn_body func args) as [v | e] eqn:Hf.
  - unfold py_test_bool_function, def, try_, return_, bind, call, ret.
    now rewrite Hf.
  - apply py_test_bool_function_raise_run, Hf.
Qed.

Lemma py_eq_builtin v1 v2 :
  is_builtin v1 = true -> is_builtin v2 = true -> exists b, py_eq v1 v2 = Ok b.
Proof.
  destruct v1, v2; simpl; intros H1 H2; try discriminate;
    eexists; reflexivity.
Qed.

Lemma py_eq_raises_not_floats v1 v2 e :
  py_eq v1 v2 = Raise e -> ~ (exists f1 f2, v1 = VFloat f1 /\ v2 = VFloat f2).
Proof. intros H (f1 & f2 & -> & ->). discriminate H. Qed.

(** ** [test], further *)

(** X1.  [test] writes nothing to the debug sink, so the message of an error
    it catches is lost, and it never calls [test_float]: floats are
    compared with [==], without a tolerance. *)
Theorem test_keeps_sink_and_float_tests
    desc should_pass expected func args w :
  sink (snd (test desc should_pass expected func args w)) = sink w
  /\ float_tests (snd (test desc should_pass expected func args w))
     = float_tests w.
Proof.
  rewrite test_run.
  destruct (compared expected func args) as [c | e];
    [| destruct (isinstance_Exception e)]; simpl;
    rewrite sink_app, float_tests_app; cbn; now rewrite !app_nil_r.
Qed.

(** X2.  Under [should_pass = False] a callable that returns normally is
    recorded as a failure whether or not its value equals [expected]: the
    expected value plays no part when the comparison does not raise. *)
Theorem test_should_fail_ignores_expected desc expected func args v c w :
  fn_body func args = Ok v ->
  py_eq expected v = Ok c ->
  test desc false expected func args w
    = (Ok tt, w ++ [EvCall (fn_name func) args; EvTestBool desc false]).
Proof.
  intros Hf Hc. rewrite test_run. unfold compared. rewrite Hf, Hc.
  now rewrite andb_false_r.
Qed.

Lemma test_should_fail_ignores_expected_witness :
  test "must fail" false (VInt 42) lambda_42 [] []
    = (Ok tt, [] ++ [EvCall (fn_name lambda_42) [];
                     EvTestBool "must fail" false]).
Proof.
  apply (test_should_fail_ignores_expected
           "must fail" (VInt 42) lambda_42 [] (VInt 42) true []);
    reflexivity.
Defined.

(** X3.  Two calls of [test] in a row: when no error outside [Exception]
    arises, both callables run and two outcomes are recorded, in the order
    of the calls; when the first call meets an error outside [Exception],
    the second call does not happen and its callable is not entered. *)
Theorem test_then_test d1 sp1 e1 f1 a1 d2 sp2 e2 f2 a2 w :
  ((forall e, compared e1 f1 a1 = Raise e -> isinstance_Exception e = true) ->
   (forall e, compared e2 f2 a2 = Raise e -> isinstance_Exception e = true) ->
   exists b1 b2,
     (test d1 sp1 e1 f1 a1 ;; test d2 sp2 e2 f2 a2) w
       = (Ok tt, w ++ [EvCall (fn_name f1) a1; EvTestBool d1 b1;
                       EvCall (fn_name f2) a2; EvTestBool d2 b2]))
  /\ (forall e,
        compared e1 f1 a1 = Raise e -> isinstance_Exception e = false ->
        (test d1 sp1 e1 f1 a1 ;; test d2 sp2 e2 f2 a2) w
          = (Raise e, w ++ [EvCall (fn_name f1) a1])).
Proof.
  split.
  - intros H1 H2.
    assert (Hone : forall d sp ex f a w0,
               (forall e, compared ex f a = Raise e ->
                          isinstance_Exception e = true) ->
               exists b, test d sp ex f a w0
                         = (Ok tt, w0 ++ [EvCall (fn_name f) a;
                                          EvTestBool d b])).
    { intros d sp ex f a w0 H. rewrite test_run.
      destruct (compared ex f a) as [c | e]; [now eexists |].
      rewrite (H e eq_refl). now eexists. }
    destruct (Hone d1 sp1 e1 f1 a1 w H1) as [b1 Hb1].
    destruct (Hone d2 sp2 e2 f2 a2
                (w ++ [EvCall (fn_name f1) a1; EvTestBool d1 b1]) H2)
      as [b2 Hb2].
    exists b1, b2. unfold bind. rewrite Hb1, Hb2.
    now rewrite <- app_assoc.
  - intros e He Hi. unfold bind. rewrite test_run, He, Hi. reflexivity.
Qed.

Lemma test_then_test_witness :
  (exists b1 b2,
     (test "first" true (VInt 42) lambda_42 [] ;;
      test "second" false VNone lambda_div0 []) []
       = (Ok tt, [] ++ [EvCall (fn_name lambda_42) []; EvTestBool "first" b1;
                        EvCall (fn_name lambda_div0) [];
                        EvTestBool "second" b2]))
  /\ (test "first" true VNone interrupted [] ;;
      test "second" true (VInt 42) lambda_42 []) []
     = (Raise (mkExn KeyboardInterrupt ""),
        [] ++ [EvCall (fn_name interrupted) []]).
Proof.
  split.
  - apply (proj1 (test_then_test "first" true (VInt 42) lambda_42 []
                    "second" false VNone lambda_div0 [] [])).
    + intros e H. vm_compute in H. discriminate H.
    + intros e H. vm_compute in H. injection H as <-. reflexivity.
  - apply (proj2 (test_then_test "first" true VNone interrupted []
                    "second" true (VInt 42) lambda_42 [] []));
      reflexivity.
Defined.

(** X4.  With [should_pass = True], and for a returned value that is not
    compared as a pair of floats, [test] records what [test_value] records
    for [expected] and that value. *)
Theorem test_agrees_with_test_value desc expected func args v b tol w :
  fn_body func args = Ok v ->
  py_eq expected v = Ok b ->
  ~ (exists f1 f2, expected = VFloat f1 /\ v = VFloat f2) ->
  recorded (snd (test desc true expected func args w))
    = recorded (snd (test_value desc expected v tol w))
  /\ recorded (snd (test desc true expected func args w))
     = recorded w ++ [(desc, b)].
Proof.
  intros Hf Hc Hnf. rewrite test_run, (test_value_strict_run _ _ _ _ _ Hnf).
  unfold compared. rewrite Hf, Hc, andb_true_r. simpl.
  rewrite !recorded_app. cbn. split; reflexivity.
Qed.

Lemma test_agrees_with_test_value_witness :
  recorded (snd (test "answer" true (VInt 42) lambda_42 [] []))
    = recorded (snd (test_value "answer" (VInt 42) (VInt 42) None []))
  /\ recorded (snd (test "answer" true (VInt 42) lambda_42 [] []))
     = recorded [] ++ [("answer", true)].
Proof.
  apply (test_agrees_with_test_value
           "answer" (VInt 42) lambda_42 [] (VInt 42) true None []);
    [reflexivity | reflexivity |].
  intros (f1 & f2 & H & _). discriminate H.
Defined.

(** ** [test_value], further *)

(** X5.  [test_value] has no handler: an error raised by [v1 == v2], also
    one derived from [Exception], reaches the caller, and nothing is
    recorded. *)
Theorem test_value_propagates_comparison_error desc v1 v2 tol e w :
  py_eq v1 v2 = Raise e ->
  test_value desc v1 v2 tol w = (Raise e, w).
Proof.
  intros He.
  rewrite (test_value_strict_run _ _ _ _ _ (py_eq_raises_not_floats _ _ _ He)).
  now rewrite He.
Qed.

Lemma test_value_propagates_comparison_error_witness :
  test_value "eq raises" ambiguous (VInt 1) None []
    = (Raise (mkExn ValueError "The truth value is ambiguous"), []).
Proof.
  apply (test_value_propagates_comparison_error
           "eq raises" ambiguous (VInt 1) None
           (mkExn ValueError "The truth value is ambiguous") []).
  reflexivity.
Defined.

(** X6.  On values of the built-in types [test_value] never raises and
    makes exactly one record: one call of [test_float] or one call of
    [test_bool] under the given description, and nothing else (no
    callable is entered, the sink is not written). *)
Theorem test_value_builtin_records_once desc v1 v2 tol w :
  is_builtin v1 = true -> is_builtin v2 = true ->
  exists ev,
    test_value desc v1 v2 tol w = (Ok tt, w ++ [ev])
    /\ ((exists t, ev = EvTestFloat desc v1 v2 t)
        \/ (exists b, ev = EvTestBool desc b /\ py_eq v1 v2 = Ok b)).
Proof.
  intros H1 H2. unfold test_value.
  destruct (PyType_eqb (type_ v1) Tfloat && PyType_eqb (type_ v2) Tfloat)%bool.
  - eexists. split; [reflexivity |]. left. now eexists.
  - rewrite strict_path_run.
    destruct (py_eq_builtin v1 v2 H1 H2) as [b Hb]. rewrite Hb.
    eexists. split; [reflexivity |]. right. now exists b.
Qed.

Lemma test_value_builtin_records_once_witness :
  exists ev,
    test_value "text and number" (VStr "1") (VInt 1) None []
      = (Ok tt, [] ++ [ev])
    /\ ((exists t, ev = EvTestFloat "text and number" (VStr "1") (VInt 1) t)
        \/ (exists b, ev = EvTestBool "text and number" b
                      /\ py_eq (VStr "1") (VInt 1) = Ok b)).
Proof.
  apply (test_value_builtin_records_once
           "text and number" (VStr "1") (VInt 1) None []);
    reflexivity.
Defined.

(** X7.  For two integers, two strings, two booleans or two [None],
    [test_value] records a pass exactly when the two values are the same,
    whatever the tolerance. *)
Theorem test_value_same_type_pass_iff desc v1 v2 tol w :
  (exists a b, v1 = VInt a /\ v2 = VInt b)
  \/ (exists a b, v1 = VStr a /\ v2 = VStr b)
  \/ (exists a b, v1 = VBool a /\ v2 = VBool b)
  \/ (v1 = VNone /\ v2 = VNone) ->
  exists outcome,
    test_value desc v1 v2 tol w = (Ok tt, w ++ [EvTestBool desc outcome])
    /\ (outcome = true <-> v1 = v2).
Proof.
  intros [(a & b & -> & ->) | [(a & b & -> & ->) | [(a & b & -> & ->)
                                                   | [-> ->]]]].
  - exists (a =? b). split; [reflexivity |]. rewrite Z.eqb_eq.
    split; [now intros -> | now intros [= ->]].
  - exists (String.eqb a b). split; [reflexivity |]. rewrite String.eqb_eq.
    split; [now intros -> | now intros [= ->]].
  - exists (Z.b2z a =? Z.b2z b). split; [reflexivity |]. rewrite Z.eqb_eq.
    split; [destruct a, b; now intros | now intros [= ->]].
  - exists true. split; [reflexivity |]. split; reflexivity.
Qed.

Lemma test_value_same_type_pass_iff_witness :
  exists outcome,
    test_value "letters" (VStr "a") (VStr "b") None []
      = (Ok tt, [] ++ [EvTestBool "letters" outcome])
    /\ (outcome = true <-> VStr "a" = VStr "b").
Proof.
  apply (test_value_same_type_pass_iff "letters" (VStr "a") (VStr "b") None []).
  right. left. now exists "a"%string, "b"%string.
Defined.

(** ** The free functions, further *)

(** X8.  Whenever [py_test_function] returns, it returns the integer 1 or
    the integer 0: 1 exactly when the callable returned, 0 exactly when it
    raised.  It never returns [None]. *)
Theorem py_test_function_result ns func args w r :
  fst (py_test_function ns func args w) = Ok r ->
  (r = VInt 1 /\ exists v, fn_body func args = Ok v)
  \/ (r = VInt 0 /\ exists e, fn_body func args = Raise e).
Proof.
  rewrite py_test_function_run.
  destruct (fn_body func args) as [v | e].
  - simpl. intros [= <-]. left. split; [reflexivity | now exists v].
  - destruct (isinstance_Exception e); [destruct (bound ns "psr") |];
      simpl; intros H; try discriminate H; injection H as <-;
      right; (split; [reflexivity | now exists e]).
Qed.

Lemma py_test_function_result_witness :
  (VInt 0 = VInt 1 /\ exists v, fn_body interrupted [] = Ok v)
  \/ (VInt 0 = VInt 0 /\ exists e, fn_body interrupted [] = Raise e).
Proof.
  apply (py_test_function_result file_namespace interrupted [] [] (VInt 0)).
  reflexivity.
Defined.

(** X9.  In a namespace that binds [psr], neither free function ever lets
    an error out, whatever the callable raises: [KeyboardInterrupt] and
    [SystemExit] are swallowed too, and turned into the result 0. *)
Theorem free_functions_catch_everything ns func args w :
  bound ns "psr" = true ->
  (exists r, fst (py_test_function ns func args w) = Ok r)
  /\ (exists r, fst (py_test_bool_function ns func args w) = Ok r)
  /\ (forall e, fn_body func args = Raise e ->
        fst (py_test_function ns func args w) = Ok (VInt 0)
        /\ fst (py_test_bool_function ns func args w) = Ok (VInt 0)).
Proof.
  intros Hpsr. rewrite py_test_function_run, py_test_bool_function_run, Hpsr.
  destruct (fn_body func args) as [v | e].
  - split; [now eexists | split; [now eexists |]].
    intros e H. discriminate H.
  - destruct (isinstance_Exception e); simpl;
      (split; [now eexists | split; [now eexists |]]);
      intros _ _; split; reflexivity.
Qed.

Lemma free_functions_catch_everything_witness :
  (exists r, fst (py_test_function namespace_with_psr interrupted [] []) = Ok r)
  /\ (exists r,
        fst (py_test_bool_function namespace_with_psr interrupted [] [])
          = Ok r)
  /\ (forall e, fn_body interrupted [] = Raise e ->
        fst (py_test_function namespace_with_psr interrupted [] [])
          = Ok (VInt 0)
        /\ fst (py_test_bool_function namespace_with_psr interrupted [] [])
           = Ok (VInt 0)).
Proof.
  apply (free_functions_catch_everything namespace_with_psr interrupted [] []).
  reflexivity.
Defined.

(** X10.  [py_test_function] raises in one situation only: the callable
    raised an error derived from [Exception] and the name [psr] is not
    bound.  What it raises then is the [NameError] for [psr], in place of
    the callable's error, and nothing has been written to the sink. *)
Theorem py_test_function_raises_iff ns func args w :
  ((exists x, fst (py_test_function ns func args w) = Raise x)
   <-> bound ns "psr" = false
       /\ exists e, fn_body func args = Raise e
                    /\ isinstance_Exception e = true)
  /\ (forall x, fst (py_test_function ns func args w) = Raise x ->
        x = psr_NameError
        /\ sink (snd (py_test_function ns func args w)) = sink w).
Proof.
  rewrite py_test_function_run.
  destruct (fn_body func args) as [v | e].
  - split; [split |].
    + intros [x H]. discriminate H.
    + intros (_ & e & H & _). discriminate H.
    + intros x H. discriminate H.
  - destruct (isinstance_Exception e) eqn:Hi;
      [destruct (bound ns "psr") eqn:Hb |]; simpl.
    + split; [split |].
      * intros [x H]. discriminate H.
      * intros (H & _). discriminate H.
      * intros x H. discriminate H.
    + split; [split |].
      * intros _. split; [reflexivity |]. now exists e.
      * intros _. now eexists.
      * intros x [= <-]. split; [reflexivity |].
        rewrite sink_app. cbn. apply app_nil_r.
    + split; [split |].
      * intros [x H]. discriminate H.
      * intros (_ & e' & [= <-] & H). rewrite Hi in H. discriminate H.
      * intros x H. discriminate H.
Qed.

(** X11.  [py_test_bool_function] raises in the same situation only, and
    raises the same [NameError]. *)
Theorem py_test_bool_function_raises_iff ns func args w :
  ((exists x, fst (py_test_bool_function ns func args w) = Raise x)
   <-> bound ns "psr" = false
       /\ exists e, fn_body func args = Raise e
                    /\ isinstance_Exception e = true)
  /\ (forall x, fst (py_test_bool_function ns func args w) = Raise x ->
        x = psr_NameError
        /\ sink (snd (py_test_bool_function ns func args w)) = sink w).
Proof.
  rewrite py_test_bool_function_run.
  destruct (fn_body func args) as [v | e].
  - split; [split |].
    + intros [x H]. discriminate H.
    + intros (_ & e & H & _). discriminate H.
    + intros x H. discriminate H.
  - destruct (isinstance_Exception e) eqn:Hi;
      [destruct (bound ns "psr") eqn:Hb |]; simpl.
    + split; [split |].
      * intros [x H]. discriminate H.
      * intros (H & _). discriminate H.
      * intros x H. discriminate H.
    + split; [split |].
      * intros _. split; [reflexivity |]. now exists e.
      * intros _. now eexists.
      * intros x [= <-]. split; [reflexivity |].
        rewrite sink_app. cbn. apply app_nil_r.
    + split; [split |].
      * intros [x H]. discriminate H.
      * intros (_ & e' & [= <-] & H). rewrite Hi in H. discriminate H.
      * intros x H. discriminate H.
Qed.

Lemma py_test_function_raises_iff_witness :
  (exists x, fst (py_test_function file_namespace lambda_div0 [] []) = Raise x)
  /\ (psr_NameError = psr_NameError
      /\ sink (snd (py_test_function file_namespace lambda_div0 [] []))
         = sink []).
Proof.
  destruct (py_test_function_raises_iff file_namespace lambda_div0 [] [])
    as [[_ Hif] Honly].
  split.
  - apply Hif. split; [reflexivity |].
    exists (mkExn ZeroDivisionError "division by zero").
    split; reflexivity.
  - apply Honly. reflexivity.
Defined.

Lemma py_test_bool_function_raises_iff_witness :
  (exists x,
     fst (py_test_bool_function file_namespace lambda_div0 [] []) = Raise x)
  /\ (psr_NameError = psr_NameError
      /\ sink (snd (py_test_bool_function file_namespace lambda_div0 [] []))
         = sink []).
Proof.
  destruct (py_test_bool_function_raises_iff file_namespace lambda_div0 [] [])
    as [[_ Hif] Honly].
  split.
  - apply Hif. split; [reflexivity |].
    exists (mkExn ZeroDivisionError "division by zero").
    split; reflexivity.
  - apply Honly. reflexivity.
Defined.

(** X12.  Each call of a free function enters the callable exactly once,
    leaves the recorder alone (no [test_bool], no [test_float]) and writes
    at most one message to the sink: none when the callable returns. *)
Theorem free_functions_effects ns func args w :
  (calls (snd (py_test_function ns func args w)) = S (calls w)
   /\ recorded (snd (py_test_function ns func args w)) = recorded w
   /\ float_tests (snd (py_test_function ns func args w)) = float_tests w
   /\ exists msgs,
        sink (snd (py_test_function ns func args w)) = sink w ++ msgs
        /\ (List.length msgs <= 1)%nat
        /\ ((exists v, fn_body func args = Ok v) -> msgs = []))
  /\ (calls (snd (py_test_bool_function ns func args w)) = S (calls w)
      /\ recorded (snd (py_test_bool_function ns func args w)) = recorded w
      /\ float_tests (snd (py_test_bool_function ns func args w))
         = float_tests w
      /\ exists msgs,
           sink (snd (py_test_bool_function ns func args w)) = sink w ++ msgs
           /\ (List.length msgs <= 1)%nat
           /\ ((exists v, fn_body func args = Ok v) -> msgs = [])).
Proof.
  rewrite py_test_function_run, py_test_bool_function_run.
  destruct (fn_body func args) as [v | e];
    [| destruct (isinstance_Exception e); [destruct (bound ns "psr") |]];
    simpl; rewrite !calls_app, !recorded_app, !float_tests_app, !sink_app;
    cbn; rewrite !app_nil_r;
    (split; (split; [lia | split; [reflexivity | split; [reflexivity |]]]));
    try (exists []; rewrite app_nil_r;
         (split; [reflexivity | split; [simpl; lia | reflexivity]]));
    (eexists; split; [reflexivity | split; [simpl; lia |]]);
    intros [v H]; discriminate H.
Qed.

Lemma free_functions_effects_witness :
  exists msgs,
    sink (snd (py_test_function namespace_with_psr lambda_42 [] []))
      = sink [] ++ msgs
    /\ (List.length msgs <= 1)%nat
    /\ msgs = [].
Proof.
  destruct (free_functions_effects namespace_with_psr lambda_42 [] [])
    as [(_ & _ & _ & msgs & Hs & Hl & Hnone) _].
  exists msgs. split; [exact Hs | split; [exact Hl |]].
  apply Hnone. now exists (VInt 42).
Defined.

(** X13.  When the callable raises, the two free functions cannot be told
    apart: same result, same trace. *)
Theorem free_functions_agree_on_raise ns func args e w :
  fn_body func args = Raise e ->
  py_test_function ns func args w = py_test_bool_function ns func args w.
Proof.
  intros Hf. rewrite py_test_function_run, py_test_bool_function_run.
  now rewrite Hf.
Qed.

Lemma free_functions_agree_on_raise_witness :
  py_test_function file_namespace lambda_div0 [] []
    = py_test_bool_function file_namespace lambda_div0 [] [].
Proof.
  apply (free_functions_agree_on_raise file_namespace lambda_div0 []
           (mkExn ZeroDivisionError "division by zero") []).
  reflexivity.
Defined.

(** X14.  Whenever [py_test_bool_function] returns, its result is the
    callable's own value, or 0 after the callable raised.  Its body never
    falls off the end: it returns [None] only when the callable returned
    [None]. *)
Theorem py_test_bool_function_result ns func args w r :
  fst (py_test_bool_function ns func args w) = Ok r ->
  (fn_body func args = Ok r
   \/ (r = VInt 0 /\ exists e, fn_body func args = Raise e))
  /\ (r = VNone -> fn_body func args = Ok VNone).
Proof.
  rewrite py_test_bool_function_run.
  destruct (fn_body func args) as [v | e].
  - simpl. intros [= <-]. split; [now left | now intros ->].
  - destruct (isinstance_Exception e); [destruct (bound ns "psr") |];
      simpl; intros H; try discriminate H; injection H as <-;
      (split; [right; split; [reflexivity | now exists e]
              | intros H; discriminate H]).
Qed.

Lemma py_test_bool_function_result_witness :
  (fn_body lambda_True [] = Ok (VBool true)
   \/ (VBool true = VInt 0 /\ exists e, fn_body lambda_True [] = Raise e))
  /\ (VBool true = VNone -> fn_body lambda_True [] = Ok VNone).
Proof.
  apply (py_test_bool_function_result
           file_namespace lambda_True [] [] (VBool true)).
  reflexivity.
Defined.

(** X15.  The result 0 of [py_test_bool_function] does not say whether the
    callable raised: in a namespace that binds [psr], a callable that
    raises and a callable that returns 0 give the same result. *)
Theorem py_test_bool_function_zero_ambiguous
    ns raising args e w returning args' w' :
  bound ns "psr" = true ->
  fn_body raising args = Raise e ->
  fn_body returning args' = Ok (VInt 0) ->
  fst (py_test_bool_function ns raising args w)
    = fst (py_test_bool_function ns returning args' w').
Proof.
  intros Hpsr Hr Hz. rewrite !py_test_bool_function_run, Hr, Hz, Hpsr.
  now destruct (isinstance_Exception e).
Qed.

Lemma py_test_bool_function_zero_ambiguous_witness :
  fst (py_test_bool_function namespace_with_psr lambda_div0 [] [])
    = fst (py_test_bool_function namespace_with_psr lambda_0 [] []).
Proof.
  apply (py_test_bool_function_zero_ambiguous
           namespace_with_psr lambda_div0 []
           (mkExn ZeroDivisionError "division by zero") [] lambda_0 [] []);
    reflexivity.
Defined.
